(* Shallow embedding of pkg/automationconfig/automation_config_builder.go:
   the automation-config Builder, its setters and Build. *)

From Stdlib Require Import ZArith NArith String List Bool Lia Ascii.
Import ListNotations.

Open Scope Z_scope.

(* ------------------------------------------------------------------ *)
(** * Go primitives *)

(** Go's [int] is 64 bits wide; [+] wraps around. *)
Definition int_wrap (z : Z) : Z := (z + 2 ^ 63) mod 2 ^ 64 - 2 ^ 63.

Definition int_add (a b : Z) : Z := int_wrap (a + b).

(** Decimal digits of a natural number, most significant first
    ([fmt]'s [%d] verb). *)
Fixpoint dec_digits (fuel : nat) (n : N) (acc : string) : string :=
  match fuel with
  | O => acc
  | S f =>
      let acc' := String (ascii_of_N (48 + N.modulo n 10)) acc in
      if N.eqb (N.div n 10) 0 then acc' else dec_digits f (N.div n 10) acc'
  end.

Definition N_to_dec (n : N) : string := dec_digits (S (N.size_nat n)) n EmptyString.

(** [fmt.Sprintf("%d", z)]. *)
Definition itoa (z : Z) : string :=
  if z <? 0 then ("-" ++ N_to_dec (Z.to_N (- z)))%string else N_to_dec (Z.to_N z).

(** Reading decimal digits back ([strconv.Atoi] on what [%d] prints for a
    non-negative number). *)
Definition digit_value (c : ascii) : N := N_of_ascii c - 48.

Fixpoint dec_value_aux (s : string) (a : N) : N :=
  match s with
  | EmptyString => a
  | String c s' => dec_value_aux s' (a * 10 + digit_value c)
  end.

Definition dec_value (s : string) : N := dec_value_aux s 0.

(** [0, 1, ..., n-1] as Go [int]s: the indices of [make([]T, n)]. *)
Definition indices (n : Z) : list Z := map Z.of_nat (seq 0 (Z.to_nat n)).

(* ------------------------------------------------------------------ *)
(** * Data model *)

Definition Topology := string.
Definition ReplicaSetTopology : Topology := "ReplicaSet"%string.

(** Modelled from the spec: the [SSLMode] type and its [SSLModeDisabled]
    constant live in automation_config.go, which is not part of the sources;
    the spec names the disabled mode "disabled" and uses "requireSSL". *)
Definition SSLMode := string.
Definition SSLModeDisabled : SSLMode := "disabled"%string.

(** Modelled from the spec: client-certificate mode of the agent's SSL block,
    default "Optional". *)
Definition ClientCertificateMode := string.
Definition ClientCertificateModeOptional : ClientCertificateMode := "Optional"%string.

(** Modelled from the spec: the TLS block of a process's network arguments
    ({mode, CA file, key file, allow-connections-without-certificate}). *)
Module MongoDBSSL.
Record t := mk {
  Mode : SSLMode;
  CAFile : string;
  PEMKeyFile : string;
  AllowConnectionsWithoutCertificate : bool
}.
(** The Go zero value [MongoDBSSL{}]: no TLS field set. *)
Definition zero : t := mk ""%string ""%string ""%string false.
End MongoDBSSL.

(** Modelled from the spec: network arguments of a process. *)
Module Net.
Record t := mk { SSL : MongoDBSSL.t }.
End Net.

(** Modelled from the spec: the process's command-line options
    (network arguments and the replica-set name). *)
Module Args26.
Record t := mk { Net : Net.t; ReplicaSetName : string }.
End Args26.

(** Modelled from the spec: one MongoDB server instance. *)
Module Process.
Record t := mk {
  Name : string;
  HostName : string;
  Version : string;
  FeatureCompatibilityVersion : string;
  Args26 : Args26.t
}.
Definition set_FeatureCompatibilityVersion (fcv : string) (p : t) : t :=
  mk (Name p) (HostName p) (Version p) fcv (Args26 p).
Definition set_SSL (ssl : MongoDBSSL.t) (p : t) : t :=
  mk (Name p) (HostName p) (Version p) (FeatureCompatibilityVersion p)
     (Args26.mk (Net.mk ssl) (Args26.ReplicaSetName (Args26 p))).
Definition SSL (p : t) : MongoDBSSL.t := Net.SSL (Args26.Net (Args26 p)).
End Process.

(** Modelled from the spec: a process's membership record, pairing a
    reference to the process (its name) with a numeric member id. *)
Module ReplicaSetMember.
Record t := mk { Id : Z; Host : string }.
End ReplicaSetMember.

(** Modelled from the spec: the named group of members. *)
Module ReplicaSet.
Record t := mk {
  Id : string;
  Members : list ReplicaSetMember.t;
  ProtocolVersion : string
}.
End ReplicaSet.

(** Modelled from the spec: a build variant of an installable version; an
    unset (nil) module list is [None], a set one (possibly empty) is [Some]. *)
Module BuildConfig.
Record t := mk {
  Platform : string;
  Url : string;
  Modules : option (list string)
}.
End BuildConfig.

(** Modelled from the spec: a catalog entry describing one installable
    MongoDB version and its build variants. *)
Module MongoDbVersionConfig.
Record t := mk { Name : string; Builds : list BuildConfig.t }.
End MongoDbVersionConfig.

(** Modelled from the spec: global options (download-base path). *)
Module Options.
Record t := mk { DownloadBase : string }.
End Options.

(** Modelled from the spec: TLS metadata for the agent. *)
Module SSL.
Record t := mk { ClientCertificateMode : ClientCertificateMode; CAFilePath : string }.
End SSL.

(** Modelled from the spec: the root document; [Auth] is opaque to the
    builder, hence a type parameter. *)
Module AutomationConfig.
Record t (A : Type) := mk {
  Version : Z;
  Processes : list Process.t;
  ReplicaSets : list ReplicaSet.t;
  Versions : list MongoDbVersionConfig.t;
  Options : Options.t;
  Auth : A;
  SSL : SSL.t
}.
Arguments mk {A}.
Arguments Version {A}.
Arguments Processes {A}.
Arguments ReplicaSets {A}.
Arguments Versions {A}.
Arguments Options {A}.
Arguments Auth {A}.
Arguments SSL {A}.

(** The Go zero value [AutomationConfig{}]. *)
Definition zero {A} (auth0 : A) : t A :=
  mk 0 [] [] [] (Options.mk ""%string) auth0
     (SSL.mk ""%string ""%string).

Definition set_Version {A} (v : Z) (ac : t A) : t A :=
  mk v (Processes ac) (ReplicaSets ac) (Versions ac) (Options ac) (Auth ac) (SSL ac).
Definition set_CAFilePath {A} (ca : string) (ac : t A) : t A :=
  mk (Version ac) (Processes ac) (ReplicaSets ac) (Versions ac) (Options ac) (Auth ac)
     (SSL.mk (SSL.ClientCertificateMode (SSL ac)) ca).
End AutomationConfig.

(** The [Enabler] interface: [Enable(auth Auth) (Auth, error)]; a [None]
    error is Go's [nil]. *)
Definition Enabler (A E : Type) := A -> A * option E.

(** The [Builder] struct.  A nil [enabler] interface is [None]. *)
Module Builder.
Record t (A E : Type) := mk {
  enabler : option (Enabler A E);
  processes : list Process.t;
  replicaSets : list ReplicaSet.t;
  version : Z;
  auth : A;
  members : Z;
  domain : string;
  name : string;
  fcv : string;
  topology : Topology;
  mongodbVersion : string;
  previousAC : AutomationConfig.t A;
  tlsCAFile : string;
  tlsCertAndKeyFile : string;
  tlsMode : SSLMode;
  versions : list MongoDbVersionConfig.t
}.
Arguments mk {A E}.
Arguments enabler {A E}.
Arguments processes {A E}.
Arguments replicaSets {A E}.
Arguments version {A E}.
Arguments auth {A E}.
Arguments members {A E}.
Arguments domain {A E}.
Arguments name {A E}.
Arguments fcv {A E}.
Arguments topology {A E}.
Arguments mongodbVersion {A E}.
Arguments previousAC {A E}.
Arguments tlsCAFile {A E}.
Arguments tlsCertAndKeyFile {A E}.
Arguments tlsMode {A E}.
Arguments versions {A E}.
End Builder.

(** What a call of [Build] does: it returns [(AutomationConfig, error)] or
    it panics (negative [make] length, method call on a nil interface). *)
Inductive Outcome (A E : Type) :=
| Returned (ac : AutomationConfig.t A) (err : option E)
| Panicked.
Arguments Returned {A E}.
Arguments Panicked {A E}.

(* ------------------------------------------------------------------ *)
(** * The builder *)

Section AutomationConfigBuilder.

(** [A] is the opaque [Auth] type and [E] Go's non-nil [error] values.
    [Auth_zero] is the zero value [Auth{}].  [DisabledAuth] is modelled
    from the spec: the canonical disabled baseline (its definition is not
    part of the sources).  [json_Marshal] is [encoding/json.Marshal] at type
    [AutomationConfig]: the canonical serialization, which may fail. *)
Context {A E : Type}.
Variable Auth_zero : A.
Variable DisabledAuth : A.
Variable json_Marshal : AutomationConfig.t A -> string + E.

Local Abbreviation Builder := (Builder.t A E).
Local Abbreviation AutomationConfig := (AutomationConfig.t A).

(** [NewBuilder]. *)
Definition NewBuilder : Builder :=
  Builder.mk None [] [] 0 Auth_zero 0 ""%string ""%string ""%string ""%string
    ""%string (AutomationConfig.zero Auth_zero) ""%string ""%string ""%string [].

Definition SetEnabler (b : Builder) (enabler : Enabler A E) : Builder :=
  Builder.mk (Some enabler) (Builder.processes b) (Builder.replicaSets b) (Builder.version b)
    (Builder.auth b) (Builder.members b) (Builder.domain b) (Builder.name b) (Builder.fcv b)
    (Builder.topology b) (Builder.mongodbVersion b) (Builder.previousAC b) (Builder.tlsCAFile b)
    (Builder.tlsCertAndKeyFile b) (Builder.tlsMode b) (Builder.versions b).

Definition SetTopology (b : Builder) (topology : Topology) : Builder :=
  Builder.mk (Builder.enabler b) (Builder.processes b) (Builder.replicaSets b) (Builder.version b)
    (Builder.auth b) (Builder.members b) (Builder.domain b) (Builder.name b) (Builder.fcv b)
    topology (Builder.mongodbVersion b) (Builder.previousAC b) (Builder.tlsCAFile b)
    (Builder.tlsCertAndKeyFile b) (Builder.tlsMode b) (Builder.versions b).

Definition SetMembers (b : Builder) (members : Z) : Builder :=
  Builder.mk (Builder.enabler b) (Builder.processes b) (Builder.replicaSets b) (Builder.version b)
    (Builder.auth b) members (Builder.domain b) (Builder.name b) (Builder.fcv b)
    (Builder.topology b) (Builder.mongodbVersion b) (Builder.previousAC b) (Builder.tlsCAFile b)
    (Builder.tlsCertAndKeyFile b) (Builder.tlsMode b) (Builder.versions b).

Definition SetDomain (b : Builder) (domain : string) : Builder :=
  Builder.mk (Builder.enabler b) (Builder.processes b) (Builder.replicaSets b) (Builder.version b)
    (Builder.auth b) (Builder.members b) domain (Builder.name b) (Builder.fcv b)
    (Builder.topology b) (Builder.mongodbVersion b) (Builder.previousAC b) (Builder.tlsCAFile b)
    (Builder.tlsCertAndKeyFile b) (Builder.tlsMode b) (Builder.versions b).

Definition SetName (b : Builder) (name : string) : Builder :=
  Builder.mk (Builder.enabler b) (Builder.processes b) (Builder.replicaSets b) (Builder.version b)
    (Builder.auth b) (Builder.members b) (Builder.domain b) name (Builder.fcv b)
    (Builder.topology b) (Builder.mongodbVersion b) (Builder.previousAC b) (Builder.tlsCAFile b)
    (Builder.tlsCertAndKeyFile b) (Builder.tlsMode b) (Builder.versions b).

Definition SetFCV (b : Builder) (fcv : string) : Builder :=
  Builder.mk (Builder.enabler b) (Builder.processes b) (Builder.replicaSets b) (Builder.version b)
    (Builder.auth b) (Builder.members b) (Builder.domain b) (Builder.name b) fcv
    (Builder.topology b) (Builder.mongodbVersion b) (Builder.previousAC b) (Builder.tlsCAFile b)
    (Builder.tlsCertAndKeyFile b) (Builder.tlsMode b) (Builder.versions b).

Definition SetTLS (b : Builder) (caFile certAndKeyFile : string) (mode : SSLMode) : Builder :=
  Builder.mk (Builder.enabler b) (Builder.processes b) (Builder.replicaSets b) (Builder.version b)
    (Builder.auth b) (Builder.members b) (Builder.domain b) (Builder.name b) (Builder.fcv b)
    (Builder.topology b) (Builder.mongodbVersion b) (Builder.previousAC b) caFile
    certAndKeyFile mode (Builder.versions b).

Definition isTLSEnabled (b : Builder) : bool :=
  negb (String.eqb (Builder.tlsCAFile b) "") &&
  negb (String.eqb (Builder.tlsCertAndKeyFile b) "") &&
  negb (String.eqb (Builder.tlsMode b) SSLModeDisabled).

(** The body of [AddVersion]'s loop on one build: a nil module list
    becomes [make([]string, 0)]. *)
Definition normalizeModules (bc : BuildConfig.t) : BuildConfig.t :=
  match BuildConfig.Modules bc with
  | None => BuildConfig.mk (BuildConfig.Platform bc) (BuildConfig.Url bc) (Some [])
  | Some _ => bc
  end.

Definition AddVersion (b : Builder) (version : MongoDbVersionConfig.t) : Builder :=
  let version' :=
    MongoDbVersionConfig.mk (MongoDbVersionConfig.Name version)
      (map normalizeModules (MongoDbVersionConfig.Builds version)) in
  Builder.mk (Builder.enabler b) (Builder.processes b) (Builder.replicaSets b) (Builder.version b)
    (Builder.auth b) (Builder.members b) (Builder.domain b) (Builder.name b) (Builder.fcv b)
    (Builder.topology b) (Builder.mongodbVersion b) (Builder.previousAC b) (Builder.tlsCAFile b)
    (Builder.tlsCertAndKeyFile b) (Builder.tlsMode b) (Builder.versions b ++ [version']).

Definition SetMongoDBVersion (b : Builder) (version : string) : Builder :=
  Builder.mk (Builder.enabler b) (Builder.processes b) (Builder.replicaSets b) (Builder.version b)
    (Builder.auth b) (Builder.members b) (Builder.domain b) (Builder.name b) (Builder.fcv b)
    (Builder.topology b) version (Builder.previousAC b) (Builder.tlsCAFile b)
    (Builder.tlsCertAndKeyFile b) (Builder.tlsMode b) (Builder.versions b).

Definition SetPreviousAutomationConfig (b : Builder) (previousAC : AutomationConfig) : Builder :=
  Builder.mk (Builder.enabler b) (Builder.processes b) (Builder.replicaSets b) (Builder.version b)
    (Builder.auth b) (Builder.members b) (Builder.domain b) (Builder.name b) (Builder.fcv b)
    (Builder.topology b) (Builder.mongodbVersion b) previousAC (Builder.tlsCAFile b)
    (Builder.tlsCertAndKeyFile b) (Builder.tlsMode b) (Builder.versions b).

(** Process functional options. *)
Definition withFCV (fcv : string) : Process.t -> Process.t :=
  Process.set_FeatureCompatibilityVersion fcv.

Definition withTLS (caFile tlsKeyFile : string) (mode : SSLMode) : Process.t -> Process.t :=
  Process.set_SSL (MongoDBSSL.mk mode caFile tlsKeyFile true).

(** Modelled from the spec: [newProcess] (not part of the sources) builds a
    process from its name, hostname, MongoDB version and replica-set name,
    with no FCV and no TLS set, then applies the options in order. *)
Definition newProcess (name hostName version replSetName : string)
    (opts : list (Process.t -> Process.t)) : Process.t :=
  fold_left (fun p opt => opt p) opts
    (Process.mk name hostName version ""%string
       (Args26.mk (Net.mk MongoDBSSL.zero) replSetName)).

(** Modelled from the spec: [newReplicaSetMember] (not part of the sources)
    pairs a reference to the process with the member id. *)
Definition newReplicaSetMember (p : Process.t) (id : Z) : ReplicaSetMember.t :=
  ReplicaSetMember.mk id (Process.Name p).

Definition toHostName (name : string) (index : Z) : string :=
  (name ++ "-" ++ itoa index)%string.

(** [fmt.Sprintf("%s-%d.%s", b.name, i, b.domain)]. *)
Definition hostname_of (b : Builder) (i : Z) : string :=
  (Builder.name b ++ "-" ++ itoa i ++ "." ++ Builder.domain b)%string.

(** The options slice built at each iteration of the process loop. *)
Definition process_opts (b : Builder) : list (Process.t -> Process.t) :=
  withFCV (Builder.fcv b) ::
  (if isTLSEnabled b
   then [withTLS (Builder.tlsCAFile b) (Builder.tlsCertAndKeyFile b) (Builder.tlsMode b)]
   else []).

(** [for i, h := range hostnames { ... processes[i] = process;
    members[i] = newReplicaSetMember(process, i) }], from index [i]. *)
Fixpoint process_loop (b : Builder) (i : Z) (hs : list string)
    : list Process.t * list ReplicaSetMember.t :=
  match hs with
  | [] => ([], [])
  | h :: hs' =>
      let process := newProcess (toHostName (Builder.name b) i) h
                       (Builder.mongodbVersion b) (Builder.name b) (process_opts b) in
      let '(ps, ms) := process_loop b (i + 1) hs' in
      (process :: ps, newReplicaSetMember process i :: ms)
  end.

Definition Build (b : Builder) : Outcome A E :=
  (* make([]string, b.members) panics on a negative length *)
  if Builder.members b <? 0 then Panicked else
  let hostnames := map (hostname_of b) (indices (Builder.members b)) in
  let '(processes, members) := process_loop b 0 hostnames in
  match Builder.enabler b with
  | None => Panicked
  | Some enable =>
      match enable DisabledAuth with
      | (_, Some err) => Returned (AutomationConfig.zero Auth_zero) (Some err)
      | (auth, None) =>
          let currentAc0 :=
            AutomationConfig.mk (AutomationConfig.Version (Builder.previousAC b)) processes
              [ReplicaSet.mk (Builder.name b) members "1"%string]
              (Builder.versions b)
              (Options.mk "/var/lib/mongodb-mms-automation"%string)
              auth
              (SSL.mk ClientCertificateModeOptional ""%string) in
          let currentAc :=
            if isTLSEnabled b
            then AutomationConfig.set_CAFilePath (Builder.tlsCAFile b) currentAc0
            else currentAc0 in
          match json_Marshal (Builder.previousAC b) with
          | inr err => Returned (AutomationConfig.zero Auth_zero) (Some err)
          | inl newAcBytes =>
              match json_Marshal currentAc with
              | inr err => Returned (AutomationConfig.zero Auth_zero) (Some err)
              | inl currentAcBytes =>
                  if negb (String.eqb newAcBytes currentAcBytes)
                  then Returned (AutomationConfig.set_Version
                                   (int_add (AutomationConfig.Version currentAc) 1) currentAc) None
                  else Returned currentAc None
              end
          end
      end
  end.

(** A builder as the code's callers obtain it: [NewBuilder] followed by
    any sequence of setter calls. *)
Inductive Reachable : Builder -> Prop :=
| reach_new : Reachable NewBuilder
| reach_enabler b e : Reachable b -> Reachable (SetEnabler b e)
| reach_topology b t : Reachable b -> Reachable (SetTopology b t)
| reach_members b n : Reachable b -> Reachable (SetMembers b n)
| reach_domain b d : Reachable b -> Reachable (SetDomain b d)
| reach_name b n : Reachable b -> Reachable (SetName b n)
| reach_fcv b f : Reachable b -> Reachable (SetFCV b f)
| reach_tls b ca ck m : Reachable b -> Reachable (SetTLS b ca ck m)
| reach_version b v : Reachable b -> Reachable (AddVersion b v)
| reach_mongodb b v : Reachable b -> Reachable (SetMongoDBVersion b v)
| reach_previous b p : Reachable b -> Reachable (SetPreviousAutomationConfig b p).

(** One call of a setter, with its arguments. *)
Inductive BuilderOp : Type :=
| OpSetEnabler (enabler : Enabler A E)
| OpSetTopology (topology : Topology)
| OpSetMembers (members : Z)
| OpSetDomain (domain : string)
| OpSetName (name : string)
| OpSetFCV (fcv : string)
| OpSetTLS (caFile certAndKeyFile : string) (mode : SSLMode)
| OpAddVersion (version : MongoDbVersionConfig.t)
| OpSetMongoDBVersion (version : string)
| OpSetPreviousAutomationConfig (previousAC : AutomationConfig).

Definition apply_op (b : Builder) (op : BuilderOp) : Builder :=
  match op with
  | OpSetEnabler e => SetEnabler b e
  | OpSetTopology t => SetTopology b t
  | OpSetMembers n => SetMembers b n
  | OpSetDomain d => SetDomain b d
  | OpSetName n => SetName b n
  | OpSetFCV f => SetFCV b f
  | OpSetTLS ca ck m => SetTLS b ca ck m
  | OpAddVersion v => AddVersion b v
  | OpSetMongoDBVersion v => SetMongoDBVersion b v
  | OpSetPreviousAutomationConfig p => SetPreviousAutomationConfig b p
  end.

(** Which setter a call is. *)
Definition op_setter (op : BuilderOp) : nat :=
  match op with
  | OpSetEnabler _ => 0
  | OpSetTopology _ => 1
  | OpSetMembers _ => 2
  | OpSetDomain _ => 3
  | OpSetName _ => 4
  | OpSetFCV _ => 5
  | OpSetTLS _ _ _ => 6
  | OpAddVersion _ => 7
  | OpSetMongoDBVersion _ => 8
  | OpSetPreviousAutomationConfig _ => 9
  end.

(** The three TLS conditions ([isTLSEnabled]) as propositions. *)
Definition TLSFullyEnabled (b : Builder) : Prop :=
  Builder.tlsCAFile b <> ""%string /\
  Builder.tlsCertAndKeyFile b <> ""%string /\
  Builder.tlsMode b <> SSLModeDisabled.

(** The process the loop of [Build] constructs at index [i]. *)
Definition process_at (b : Builder) (i : Z) : Process.t :=
  newProcess (toHostName (Builder.name b) i) (hostname_of b i)
    (Builder.mongodbVersion b) (Builder.name b) (process_opts b).

(** [currentAc] of [Build] once [auth] is known, before the comparison. *)
Definition assembled (b : Builder) (auth : A) : AutomationConfig :=
  let hostnames := map (hostname_of b) (indices (Builder.members b)) in
  let '(processes, members) := process_loop b 0 hostnames in
  let currentAc0 :=
    AutomationConfig.mk (AutomationConfig.Version (Builder.previousAC b)) processes
      [ReplicaSet.mk (Builder.name b) members "1"%string]
      (Builder.versions b)
      (Options.mk "/var/lib/mongodb-mms-automation"%string)
      auth
      (SSL.mk ClientCertificateModeOptional ""%string) in
  if isTLSEnabled b
  then AutomationConfig.set_CAFilePath (Builder.tlsCAFile b) currentAc0
  else currentAc0.

End AutomationConfigBuilder.

(* ------------------------------------------------------------------ *)
(** * A concrete instance, for evaluation

    [Auth] is a single flag ([true] = authentication enabled), errors are
    strings, and the serialization writes every field of the document as a
    JSON-like text (it never fails). *)
Module Demo.

Definition quote : string := String (ascii_of_nat 34) EmptyString.
Definition jstr (s : string) : string := (quote ++ s ++ quote)%string.
Definition jbool (b : bool) : string := if b then "true"%string else "false"%string.

Fixpoint jlist {T} (f : T -> string) (l : list T) : string :=
  match l with
  | [] => EmptyString
  | [x] => f x
  | x :: l' => (f x ++ "," ++ jlist f l')%string
  end.
Definition jarr {T} (f : T -> string) (l : list T) : string :=
  ("[" ++ jlist f l ++ "]")%string.

Definition ser_tls (m : MongoDBSSL.t) : string :=
  ("{mode:" ++ jstr (MongoDBSSL.Mode m) ++ ",CAFile:" ++ jstr (MongoDBSSL.CAFile m) ++
   ",PEMKeyFile:" ++ jstr (MongoDBSSL.PEMKeyFile m) ++
   ",allowConnectionsWithoutCertificates:" ++
   jbool (MongoDBSSL.AllowConnectionsWithoutCertificate m) ++ "}")%string.

Definition ser_process (p : Process.t) : string :=
  ("{name:" ++ jstr (Process.Name p) ++ ",hostname:" ++ jstr (Process.HostName p) ++
   ",version:" ++ jstr (Process.Version p) ++
   ",featureCompatibilityVersion:" ++ jstr (Process.FeatureCompatibilityVersion p) ++
   ",replSetName:" ++ jstr (Args26.ReplicaSetName (Process.Args26 p)) ++
   ",ssl:" ++ ser_tls (Process.SSL p) ++ "}")%string.

Definition ser_member (m : ReplicaSetMember.t) : string :=
  ("{_id:" ++ itoa (ReplicaSetMember.Id m) ++ ",host:" ++ jstr (ReplicaSetMember.Host m) ++ "}")%string.

Definition ser_rs (rs : ReplicaSet.t) : string :=
  ("{_id:" ++ jstr (ReplicaSet.Id rs) ++ ",members:" ++ jarr ser_member (ReplicaSet.Members rs) ++
   ",protocolVersion:" ++ jstr (ReplicaSet.ProtocolVersion rs) ++ "}")%string.

Definition ser_build (bc : BuildConfig.t) : string :=
  ("{platform:" ++ jstr (BuildConfig.Platform bc) ++ ",url:" ++ jstr (BuildConfig.Url bc) ++
   ",modules:" ++ match BuildConfig.Modules bc with
                  | None => "null"%string
                  | Some ms => jarr jstr ms
                  end ++ "}")%string.

Definition ser_version (v : MongoDbVersionConfig.t) : string :=
  ("{name:" ++ jstr (MongoDbVersionConfig.Name v) ++ ",builds:" ++
   jarr ser_build (MongoDbVersionConfig.Builds v) ++ "}")%string.

Definition json_Marshal (ac : AutomationConfig.t bool) : string + string :=
  inl ("{version:" ++ itoa (AutomationConfig.Version ac) ++
       ",processes:" ++ jarr ser_process (AutomationConfig.Processes ac) ++
       ",replicaSets:" ++ jarr ser_rs (AutomationConfig.ReplicaSets ac) ++
       ",mongoDbVersions:" ++ jarr ser_version (AutomationConfig.Versions ac) ++
       ",options:{downloadBase:" ++ jstr (Options.DownloadBase (AutomationConfig.Options ac)) ++
       "},auth:{disabled:" ++ jbool (negb (AutomationConfig.Auth ac)) ++
       "},ssl:{clientCertificateMode:" ++
       jstr (SSL.ClientCertificateMode (AutomationConfig.SSL ac)) ++
       ",CAFilePath:" ++ jstr (SSL.CAFilePath (AutomationConfig.SSL ac)) ++ "}}")%string.

(** [DisabledAuth()], an enabler that keeps it and one that fails. *)
Definition DisabledAuth : bool := false.
Definition keep_disabled : Enabler bool string := fun a => (a, None).
Definition failing : Enabler bool string := fun a => (a, Some "bad auth policy"%string).

Definition Build := Build false DisabledAuth json_Marshal.

Definition builder3 (prev : AutomationConfig.t bool) : Builder.t bool string :=
  SetPreviousAutomationConfig
    (SetFCV (SetName (SetDomain (SetMembers
      (SetTopology (SetEnabler (NewBuilder false) keep_disabled) ReplicaSetTopology)
      3) "example.com") "foo") "4.2") prev.

Definition outcome_ac (o : Outcome bool string) : AutomationConfig.t bool :=
  match o with
  | Returned ac _ => ac
  | Panicked => AutomationConfig.zero false
  end.

(** The spec's scenario: version 5, three processes, TLS and auth disabled. *)
Definition prev5 : AutomationConfig.t bool :=
  AutomationConfig.set_Version 5 (outcome_ac (Build (builder3 (AutomationConfig.zero false)))).

(** The spec's second scenario: TLS switched on. *)
Definition builder_tls : Builder.t bool string :=
  SetTLS (builder3 prev5) "/ca.pem"%string "/server.pem"%string "requireSSL"%string.

(** An enabler that fails. *)
Definition builder_fail : Builder.t bool string := SetEnabler (builder3 prev5) failing.

(** A catalog entry with one build lacking a module list and one with. *)
Definition catalog_entry : MongoDbVersionConfig.t :=
  MongoDbVersionConfig.mk "4.2.6"%string
    [BuildConfig.mk "linux"%string "https://example.com/a.tgz"%string None;
     BuildConfig.mk "linux"%string "https://example.com/b.tgz"%string
       (Some ["enterprise"%string])].

Definition builder_catalog : Builder.t bool string := AddVersion (builder3 prev5) catalog_entry.

(** A serialization that refuses documents with version 7. *)
Definition json_Marshal_refusing_7 (ac : AutomationConfig.t bool) : string + string :=
  if AutomationConfig.Version ac =? 7 then inr "json: unsupported value"%string
  else json_Marshal ac.

Definition prev7 : AutomationConfig.t bool := AutomationConfig.set_Version 7 prev5.

End Demo.

(* ------------------------------------------------------------------ *)
(** * Facts about [Build] *)

Section BuildFacts.

Context {A E : Type}.
Variable Auth_zero : A.
Variable DisabledAuth : A.
Variable json_Marshal : AutomationConfig.t A -> string + E.

Local Abbreviation build := (Build Auth_zero DisabledAuth json_Marshal).

Lemma isTLSEnabled_spec (b : Builder.t A E) :
  isTLSEnabled b = true <-> TLSFullyEnabled b.
Proof.
  unfold isTLSEnabled, TLSFullyEnabled.
  rewrite !andb_true_iff, !negb_true_iff, !String.eqb_neq.
  tauto.
Qed.

Lemma isTLSEnabled_false (b : Builder.t A E) :
  isTLSEnabled b = false <-> ~ TLSFullyEnabled b.
Proof.
  rewrite <- isTLSEnabled_spec. destruct (isTLSEnabled b); intuition congruence.
Qed.

Lemma process_loop_seq (b : Builder.t A E) (n s : nat) :
  process_loop b (Z.of_nat s) (map (hostname_of b) (map Z.of_nat (seq s n))) =
  (map (fun k => process_at b (Z.of_nat k)) (seq s n),
   map (fun k => newReplicaSetMember (process_at b (Z.of_nat k)) (Z.of_nat k)) (seq s n)).
Proof.
  revert s. induction n as [|n IH]; intro s; [reflexivity|].
  cbn [seq map process_loop].
  replace (Z.of_nat s + 1) with (Z.of_nat (S s)) by lia.
  rewrite IH. reflexivity.
Qed.

Lemma process_loop_indices (b : Builder.t A E) (n : Z) :
  process_loop b 0 (map (hostname_of b) (indices n)) =
  (map (process_at b) (indices n),
   map (fun i => newReplicaSetMember (process_at b i) i) (indices n)).
Proof.
  unfold indices. pose proof (process_loop_seq b (Z.to_nat n) 0) as H.
  cbn [Z.of_nat] in H. rewrite H, !map_map. reflexivity.
Qed.

Lemma assembled_closed (b : Builder.t A E) (auth : A) :
  assembled b auth =
  AutomationConfig.mk (AutomationConfig.Version (Builder.previousAC b))
    (map (process_at b) (indices (Builder.members b)))
    [ReplicaSet.mk (Builder.name b)
       (map (fun i => newReplicaSetMember (process_at b i) i) (indices (Builder.members b)))
       "1"%string]
    (Builder.versions b)
    (Options.mk "/var/lib/mongodb-mms-automation"%string)
    auth
    (SSL.mk ClientCertificateModeOptional
       (if isTLSEnabled b then Builder.tlsCAFile b else ""%string)).
Proof.
  unfold assembled. rewrite process_loop_indices.
  destruct (isTLSEnabled b); reflexivity.
Qed.

(** [Build] with the assembly of [currentAc] folded into [assembled]. *)
Lemma Build_assembled (b : Builder.t A E) :
  build b =
  if Builder.members b <? 0 then Panicked else
  match Builder.enabler b with
  | None => Panicked
  | Some enable =>
      match enable DisabledAuth with
      | (_, Some err) => Returned (AutomationConfig.zero Auth_zero) (Some err)
      | (auth, None) =>
          match json_Marshal (Builder.previousAC b) with
          | inr err => Returned (AutomationConfig.zero Auth_zero) (Some err)
          | inl newAcBytes =>
              match json_Marshal (assembled b auth) with
              | inr err => Returned (AutomationConfig.zero Auth_zero) (Some err)
              | inl currentAcBytes =>
                  if negb (String.eqb newAcBytes currentAcBytes)
                  then Returned (AutomationConfig.set_Version
                                   (int_add (AutomationConfig.Version (assembled b auth)) 1)
                                   (assembled b auth)) None
                  else Returned (assembled b auth) None
              end
          end
      end
  end.
Proof.
  unfold Build, assembled.
  destruct (process_loop b 0 _); reflexivity.
Qed.

(** Inversion of a successful [Build]. *)
Lemma Build_ok_inv (b : Builder.t A E) (ac : AutomationConfig.t A) :
  build b = Returned ac None ->
  0 <= Builder.members b /\
  exists enable auth sprev scur,
    Builder.enabler b = Some enable /\
    enable DisabledAuth = (auth, None) /\
    json_Marshal (Builder.previousAC b) = inl sprev /\
    json_Marshal (assembled b auth) = inl scur /\
    ac = (if String.eqb sprev scur then assembled b auth
          else AutomationConfig.set_Version
                 (int_add (AutomationConfig.Version (Builder.previousAC b)) 1)
                 (assembled b auth)).
Proof.
  intro H. rewrite Build_assembled in H.
  destruct (Builder.members b <? 0) eqn:Hm; [discriminate|].
  apply Z.ltb_ge in Hm. split; [exact Hm|].
  destruct (Builder.enabler b) as [enable|] eqn:Hen; [|discriminate].
  destruct (enable DisabledAuth) as [auth [err|]] eqn:He; [discriminate|].
  destruct (json_Marshal (Builder.previousAC b)) as [sprev|err] eqn:Hp; [|discriminate].
  destruct (json_Marshal (assembled b auth)) as [scur|err] eqn:Hc; [|discriminate].
  exists enable, auth, sprev, scur.
  repeat split; try assumption.
  destruct (String.eqb sprev scur); cbn [negb] in H; injection H as <-; [reflexivity|].
  rewrite assembled_closed. reflexivity.
Qed.

Lemma set_Version_Version (ac : AutomationConfig.t A) :
  AutomationConfig.set_Version (AutomationConfig.Version ac) ac = ac.
Proof. destruct ac; reflexivity. Qed.

Lemma set_Version_set_Version (v w : Z) (ac : AutomationConfig.t A) :
  AutomationConfig.set_Version v (AutomationConfig.set_Version w ac) =
  AutomationConfig.set_Version v ac.
Proof. destruct ac; reflexivity. Qed.

Lemma Version_set_Version (v : Z) (ac : AutomationConfig.t A) :
  AutomationConfig.Version (AutomationConfig.set_Version v ac) = v.
Proof. destruct ac; reflexivity. Qed.

Lemma Version_assembled (b : Builder.t A E) (auth : A) :
  AutomationConfig.Version (assembled b auth) = AutomationConfig.Version (Builder.previousAC b).
Proof. rewrite assembled_closed. reflexivity. Qed.

(** The previous document enters the assembled one only as its version. *)
Lemma assembled_SetPrev (b : Builder.t A E) (p : AutomationConfig.t A) (auth : A) :
  assembled (SetPreviousAutomationConfig b p) auth =
  AutomationConfig.set_Version (AutomationConfig.Version p) (assembled b auth).
Proof. rewrite !assembled_closed. reflexivity. Qed.

Lemma SetPrev_members (b : Builder.t A E) (p : AutomationConfig.t A) :
  Builder.members (SetPreviousAutomationConfig b p) = Builder.members b.
Proof. reflexivity. Qed.

Lemma SetPrev_enabler (b : Builder.t A E) (p : AutomationConfig.t A) :
  Builder.enabler (SetPreviousAutomationConfig b p) = Builder.enabler b.
Proof. reflexivity. Qed.

Lemma SetPrev_previousAC (b : Builder.t A E) (p : AutomationConfig.t A) :
  Builder.previousAC (SetPreviousAutomationConfig b p) = p.
Proof. reflexivity. Qed.

(** A successful [Build] returns the assembled document with some version. *)
Lemma Build_ok_assembled (b : Builder.t A E) (ac : AutomationConfig.t A) :
  build b = Returned ac None ->
  exists auth, AutomationConfig.set_Version
                 (AutomationConfig.Version (Builder.previousAC b)) ac = assembled b auth.
Proof.
  intros H. destruct (Build_ok_inv b ac H) as (_ & enable & auth & sp & sc & _ & _ & _ & _ & ->).
  exists auth. rewrite <- (Version_assembled b auth) at 1.
  destruct (String.eqb sp sc); [apply set_Version_Version|].
  rewrite set_Version_set_Version. apply set_Version_Version.
Qed.

(** A successful [Build] returns the assembled document up to [Version]. *)
Lemma Build_ok_upto_version (b : Builder.t A E) (ac : AutomationConfig.t A) :
  build b = Returned ac None ->
  exists enable auth,
    Builder.enabler b = Some enable /\
    enable DisabledAuth = (auth, None) /\
    forall v, AutomationConfig.set_Version v ac = AutomationConfig.set_Version v (assembled b auth).
Proof.
  intros H. destruct (Build_ok_inv b ac H) as (_ & enable & auth & sp & sc & Hen & He & _ & _ & ->).
  exists enable, auth. split; [exact Hen|]. split; [exact He|].
  intro v. destruct (String.eqb sp sc); [reflexivity|]. apply set_Version_set_Version.
Qed.

Lemma length_indices (n : Z) : length (indices n) = Z.to_nat n.
Proof. unfold indices. rewrite length_map, length_seq. reflexivity. Qed.

Lemma nth_error_map_indices {T} (f : Z -> T) (n : Z) (k : nat) :
  nth_error (map f (indices n)) k =
  if Nat.ltb k (Z.to_nat n) then Some (f (Z.of_nat k)) else None.
Proof.
  unfold indices. rewrite map_map, nth_error_map, nth_error_seq.
  destruct (Nat.ltb k (Z.to_nat n)); reflexivity.
Qed.

Lemma process_at_Name (b : Builder.t A E) (i : Z) :
  Process.Name (process_at b i) = toHostName (Builder.name b) i.
Proof. unfold process_at, newProcess, process_opts. destruct (isTLSEnabled b); reflexivity. Qed.

Lemma process_at_HostName (b : Builder.t A E) (i : Z) :
  Process.HostName (process_at b i) = hostname_of b i.
Proof. unfold process_at, newProcess, process_opts. destruct (isTLSEnabled b); reflexivity. Qed.

Lemma process_at_SSL (b : Builder.t A E) (i : Z) :
  Process.SSL (process_at b i) =
  if isTLSEnabled b
  then MongoDBSSL.mk (Builder.tlsMode b) (Builder.tlsCAFile b) (Builder.tlsCertAndKeyFile b) true
  else MongoDBSSL.zero.
Proof. unfold process_at, newProcess, process_opts. destruct (isTLSEnabled b); reflexivity. Qed.

(** The fields of a successfully built document. *)
Lemma Build_ok_fields (b : Builder.t A E) (ac : AutomationConfig.t A) :
  build b = Returned ac None ->
  0 <= Builder.members b /\
  AutomationConfig.Processes ac = map (process_at b) (indices (Builder.members b)) /\
  AutomationConfig.ReplicaSets ac =
    [ReplicaSet.mk (Builder.name b)
       (map (fun i => newReplicaSetMember (process_at b i) i) (indices (Builder.members b)))
       "1"%string] /\
  AutomationConfig.Versions ac = Builder.versions b /\
  AutomationConfig.SSL ac =
    SSL.mk ClientCertificateModeOptional
      (if isTLSEnabled b then Builder.tlsCAFile b else ""%string).
Proof.
  intros H.
  destruct (Build_ok_inv b ac H) as [Hm _].
  destruct (Build_ok_upto_version b ac H) as (_ & auth & _ & _ & Hv).
  specialize (Hv 0). rewrite assembled_closed in Hv.
  destruct ac. cbn in Hv. injection Hv as -> -> -> _ _ ->.
  repeat split; assumption.
Qed.

End BuildFacts.

(* ------------------------------------------------------------------ *)
(** * Versioning, error propagation and the previous document *)

Section Versioning.

Context {A E : Type}.
Variable Auth_zero : A.
Variable DisabledAuth : A.
Variable json_Marshal : AutomationConfig.t A -> string + E.

Local Abbreviation Build := (Build Auth_zero DisabledAuth json_Marshal).

(** C1: when [Build] returns a document, both serializations succeeded and
    its [Version] is [previousAC.Version] when the serialization of the
    previous document equals that of the new document carrying the previous
    version, and [previousAC.Version + 1] (Go [int] addition) otherwise. *)
Theorem Build_version_bump (b : Builder.t A E) (ac : AutomationConfig.t A) :
  Build b = Returned ac None ->
  exists sprev scur,
    json_Marshal (Builder.previousAC b) = inl sprev /\
    json_Marshal (AutomationConfig.set_Version
                    (AutomationConfig.Version (Builder.previousAC b)) ac) = inl scur /\
    AutomationConfig.Version ac =
      (if String.eqb sprev scur
       then AutomationConfig.Version (Builder.previousAC b)
       else int_add (AutomationConfig.Version (Builder.previousAC b)) 1).
Proof.
  intros H.
  destruct (Build_ok_inv Auth_zero DisabledAuth json_Marshal b ac H)
    as (_ & enable & auth & sp & sc & _ & _ & Hp & Hc & Hac).
  destruct (Build_ok_assembled Auth_zero DisabledAuth json_Marshal b ac H) as [auth' Hset].
  exists sp, sc. split; [exact Hp|].
  rewrite Hac. split.
  - rewrite <- (Version_assembled b auth) at 1.
    destruct (String.eqb sp sc);
      [rewrite set_Version_Version | rewrite set_Version_set_Version, set_Version_Version];
      exact Hc.
  - destruct (String.eqb sp sc).
    + apply Version_assembled.
    + apply Version_set_Version.
Qed.

(** C2: feeding a successful result back in as the previous document, with
    every other input unchanged, returns that same document, version
    included (for a serialization whose success does not depend on the
    version number, as for [encoding/json] on an [int] field). *)
Theorem Build_idempotent
    (Hmarshal : forall (ac : AutomationConfig.t A) (v : Z) (s : string),
        json_Marshal ac = inl s ->
        exists s', json_Marshal (AutomationConfig.set_Version v ac) = inl s')
    (b : Builder.t A E) (Y : AutomationConfig.t A) :
  Build b = Returned Y None ->
  Build (SetPreviousAutomationConfig b Y) = Returned Y None.
Proof.
  intros H.
  destruct (Build_ok_inv Auth_zero DisabledAuth json_Marshal b Y H)
    as (Hm & enable & auth & sp & sc & Hen & He & Hp & Hc & HY).
  assert (HYa : AutomationConfig.set_Version (AutomationConfig.Version Y) (assembled b auth) = Y).
  { rewrite HY. destruct (String.eqb sp sc).
    - rewrite Version_assembled, <- (Version_assembled b auth). apply set_Version_Version.
    - rewrite Version_set_Version. reflexivity. }
  destruct (Hmarshal _ (AutomationConfig.Version Y) _ Hc) as [sY HsY].
  rewrite HYa in HsY.
  rewrite Build_assembled, SetPrev_members, SetPrev_enabler, SetPrev_previousAC.
  replace (Builder.members b <? 0) with false by (symmetry; apply Z.ltb_ge; exact Hm).
  rewrite Hen, He, assembled_SetPrev, HYa, HsY, String.eqb_refl.
  reflexivity.
Qed.

(** C5: when the enabler fails on the disabled baseline, [Build] returns
    the zero document together with exactly that error; the only other
    outcome is the panic of [make] on a negative member count, which happens
    before the enabler is called. *)
Theorem Build_enabler_error (b : Builder.t A E) (enable : Enabler A E) (a : A) (e : E) :
  Builder.enabler b = Some enable ->
  enable DisabledAuth = (a, Some e) ->
  Build b = (if Builder.members b <? 0 then Panicked
             else Returned (AutomationConfig.zero Auth_zero) (Some e)).
Proof.
  intros Hen He. rewrite Build_assembled, Hen, He. reflexivity.
Qed.

(** C10: two successful builds that differ only in the previous document
    return documents equal in every field but [Version]. *)
Theorem Build_previous_only_version
    (b : Builder.t A E) (p1 p2 : AutomationConfig.t A) (ac1 ac2 : AutomationConfig.t A) :
  Build (SetPreviousAutomationConfig b p1) = Returned ac1 None ->
  Build (SetPreviousAutomationConfig b p2) = Returned ac2 None ->
  AutomationConfig.set_Version 0 ac1 = AutomationConfig.set_Version 0 ac2.
Proof.
  intros H1 H2.
  destruct (Build_ok_upto_version Auth_zero DisabledAuth json_Marshal _ ac1 H1)
    as (en1 & auth1 & Hen1 & He1 & Hv1).
  destruct (Build_ok_upto_version Auth_zero DisabledAuth json_Marshal _ ac2 H2)
    as (en2 & auth2 & Hen2 & He2 & Hv2).
  rewrite SetPrev_enabler in Hen1, Hen2.
  rewrite Hen1 in Hen2. injection Hen2 as <-. rewrite He1 in He2. injection He2 as <-.
  rewrite Hv1, Hv2, !assembled_SetPrev, !set_Version_set_Version. reflexivity.
Qed.

End Versioning.

(* ------------------------------------------------------------------ *)
(** * Processes, members, replica set and SSL of a built document *)

Section Topology.

Context {A E : Type}.
Variable Auth_zero : A.
Variable DisabledAuth : A.
Variable json_Marshal : AutomationConfig.t A -> string + E.

Local Abbreviation Build := (Build Auth_zero DisabledAuth json_Marshal).

(** C3: every process of a built document carries TLS arguments exactly
    when the CA file and the cert-and-key file are non-empty and the mode is
    not disabled; they are then {mode, CA file, key file,
    AllowConnectionsWithoutCertificate = true}, and otherwise the TLS block
    is the zero value (no TLS field set). *)
Theorem Build_process_tls (b : Builder.t A E) (ac : AutomationConfig.t A) :
  Build b = Returned ac None ->
  forall p, In p (AutomationConfig.Processes ac) ->
    (Process.SSL p <> MongoDBSSL.zero <-> TLSFullyEnabled b) /\
    (TLSFullyEnabled b ->
       Process.SSL p = MongoDBSSL.mk (Builder.tlsMode b) (Builder.tlsCAFile b)
                         (Builder.tlsCertAndKeyFile b) true) /\
    (~ TLSFullyEnabled b -> Process.SSL p = MongoDBSSL.zero).
Proof.
  intros H p Hp.
  destruct (Build_ok_fields Auth_zero DisabledAuth json_Marshal b ac H) as (_ & Hps & _).
  rewrite Hps in Hp. apply in_map_iff in Hp as (i & <- & _).
  rewrite process_at_SSL.
  destruct (isTLSEnabled b) eqn:Ht.
  - apply isTLSEnabled_spec in Ht.
    split; [split; [intros _; exact Ht | intros _ Hz; discriminate Hz]|].
    split; [reflexivity | tauto].
  - apply isTLSEnabled_false in Ht.
    split; [split; [intros Hz; exfalso; apply Hz; reflexivity | tauto]|].
    split; [tauto | reflexivity].
Qed.

(** C4: with [N] members configured, a built document has exactly [N]
    processes and [N] members of its replica set; member [i] has id [i] and
    refers to process [i]. *)
Theorem Build_members_count (b0 : Builder.t A E) (N : Z) (ac : AutomationConfig.t A) :
  Build (SetMembers b0 N) = Returned ac None ->
  Z.of_nat (length (AutomationConfig.Processes ac)) = N /\
  exists rs,
    AutomationConfig.ReplicaSets ac = [rs] /\
    Z.of_nat (length (ReplicaSet.Members rs)) = N /\
    map ReplicaSetMember.Id (ReplicaSet.Members rs) = map Z.of_nat (seq 0 (Z.to_nat N)) /\
    forall (k : nat) (p : Process.t),
      nth_error (AutomationConfig.Processes ac) k = Some p ->
      exists m, nth_error (ReplicaSet.Members rs) k = Some m /\
                ReplicaSetMember.Id m = Z.of_nat k /\
                ReplicaSetMember.Host m = Process.Name p.
Proof.
  intros H.
  destruct (Build_ok_fields Auth_zero DisabledAuth json_Marshal _ ac H)
    as (Hm & Hps & Hrs & _).
  cbn [SetMembers Builder.members] in Hm, Hps, Hrs.
  rewrite Hps, length_map, length_indices, Z2Nat.id by exact Hm.
  split; [reflexivity|].
  eexists. split; [exact Hrs|]. cbn [ReplicaSet.Members].
  split; [rewrite length_map, length_indices, Z2Nat.id by exact Hm; reflexivity|].
  split.
  - rewrite map_map. unfold indices. rewrite map_map. reflexivity.
  - intros k p Hk.
    rewrite nth_error_map_indices in Hk. rewrite nth_error_map_indices.
    destruct (Nat.ltb k _); [|discriminate].
    injection Hk as <-. eexists. split; [reflexivity|].
    split; reflexivity.
Qed.

(** C6: process [i] of a built document has hostname "<name>-<i>.<domain>"
    and process name "<name>-<i>". *)
Theorem Build_hostnames (b : Builder.t A E) (ac : AutomationConfig.t A) (i : Z) :
  Build b = Returned ac None ->
  0 <= i < Builder.members b ->
  exists p,
    nth_error (AutomationConfig.Processes ac) (Z.to_nat i) = Some p /\
    Process.HostName p = (Builder.name b ++ "-" ++ itoa i ++ "." ++ Builder.domain b)%string /\
    Process.Name p = (Builder.name b ++ "-" ++ itoa i)%string.
Proof.
  intros H Hi.
  destruct (Build_ok_fields Auth_zero DisabledAuth json_Marshal b ac H) as (_ & Hps & _).
  rewrite Hps, nth_error_map_indices.
  replace (Nat.ltb (Z.to_nat i) (Z.to_nat (Builder.members b))) with true
    by (symmetry; apply Nat.ltb_lt; lia).
  rewrite Z2Nat.id by lia.
  eexists. split; [reflexivity|].
  rewrite process_at_HostName, process_at_Name. split; reflexivity.
Qed.

(** C7: the agent SSL block of a built document has client-certificate mode
    "Optional"; its CA file path is the configured CA file when TLS is fully
    enabled and empty otherwise, so it is set exactly when TLS is fully
    enabled. *)
Theorem Build_ssl_cafile (b : Builder.t A E) (ac : AutomationConfig.t A) :
  Build b = Returned ac None ->
  SSL.ClientCertificateMode (AutomationConfig.SSL ac) = ClientCertificateModeOptional /\
  (TLSFullyEnabled b -> SSL.CAFilePath (AutomationConfig.SSL ac) = Builder.tlsCAFile b) /\
  (~ TLSFullyEnabled b -> SSL.CAFilePath (AutomationConfig.SSL ac) = ""%string) /\
  (SSL.CAFilePath (AutomationConfig.SSL ac) <> ""%string <-> TLSFullyEnabled b).
Proof.
  intros H.
  destruct (Build_ok_fields Auth_zero DisabledAuth json_Marshal b ac H) as (_ & _ & _ & _ & Hssl).
  rewrite Hssl. cbn [SSL.ClientCertificateMode SSL.CAFilePath].
  split; [reflexivity|].
  destruct (isTLSEnabled b) eqn:Ht.
  - apply isTLSEnabled_spec in Ht.
    split; [reflexivity|]. split; [tauto|].
    split; [intros _; exact Ht | intros _; apply Ht].
  - apply isTLSEnabled_false in Ht.
    split; [tauto|]. split; [reflexivity|].
    split; [intros Hz; exfalso; apply Hz; reflexivity | tauto].
Qed.

(** C9: a built document has exactly one replica set; its id is the
    deployment name, its protocol version is "1", and its members are the
    [N] members derived from the processes in order. *)
Theorem Build_single_replica_set (b : Builder.t A E) (ac : AutomationConfig.t A) :
  Build b = Returned ac None ->
  exists rs,
    AutomationConfig.ReplicaSets ac = [rs] /\
    ReplicaSet.Id rs = Builder.name b /\
    ReplicaSet.ProtocolVersion rs = "1"%string /\
    Z.of_nat (length (ReplicaSet.Members rs)) = Builder.members b /\
    length (ReplicaSet.Members rs) = length (AutomationConfig.Processes ac) /\
    forall (k : nat) (p : Process.t),
      nth_error (AutomationConfig.Processes ac) k = Some p ->
      nth_error (ReplicaSet.Members rs) k = Some (newReplicaSetMember p (Z.of_nat k)).
Proof.
  intros H.
  destruct (Build_ok_fields Auth_zero DisabledAuth json_Marshal b ac H)
    as (Hm & Hps & Hrs & _).
  eexists. split; [exact Hrs|]. cbn [ReplicaSet.Id ReplicaSet.ProtocolVersion ReplicaSet.Members].
  split; [reflexivity|]. split; [reflexivity|].
  rewrite Hps, !length_map, length_indices, Z2Nat.id by exact Hm.
  split; [reflexivity|]. split; [reflexivity|].
  intros k p Hk. rewrite nth_error_map_indices in Hk. rewrite nth_error_map_indices.
  destruct (Nat.ltb k _); [|discriminate].
  injection Hk as <-. reflexivity.
Qed.

End Topology.

(* ------------------------------------------------------------------ *)
(** * The version catalog *)

Section Catalog.

Context {A E : Type}.
Variable Auth_zero : A.
Variable DisabledAuth : A.
Variable json_Marshal : AutomationConfig.t A -> string + E.

Local Abbreviation Build := (Build Auth_zero DisabledAuth json_Marshal).

Lemma normalizeModules_set (bc : BuildConfig.t) :
  BuildConfig.Modules (normalizeModules bc) <> None.
Proof. unfold normalizeModules. destruct (BuildConfig.Modules bc) eqn:H; cbn; congruence. Qed.

(** Every builder reachable through the setters holds only catalog entries
    whose builds all have a module list. *)
Lemma Reachable_versions (b : Builder.t A E) :
  Reachable Auth_zero b ->
  Forall (fun v => Forall (fun bc => BuildConfig.Modules bc <> None)
                     (MongoDbVersionConfig.Builds v))
         (Builder.versions b).
Proof.
  induction 1; cbn; try assumption.
  - constructor.
  - apply Forall_app. split; [assumption|].
    constructor; [|constructor].
    cbn. apply Forall_forall. intros bc Hin.
    apply in_map_iff in Hin as (bc0 & <- & _). apply normalizeModules_set.
Qed.

(** C8: [AddVersion] appends the entry with every nil module list replaced
    by an empty one and every other field kept; hence in every document built
    from a builder obtained through [NewBuilder] and the setters, every build
    of every catalog entry has a (possibly empty) module list. *)
Theorem AddVersion_modules_normalized :
  (forall (b : Builder.t A E) (v : MongoDbVersionConfig.t),
     exists v',
       Builder.versions (AddVersion b v) = Builder.versions b ++ [v'] /\
       MongoDbVersionConfig.Name v' = MongoDbVersionConfig.Name v /\
       Forall2 (fun bc bc' =>
                  BuildConfig.Platform bc' = BuildConfig.Platform bc /\
                  BuildConfig.Url bc' = BuildConfig.Url bc /\
                  (BuildConfig.Modules bc = None -> BuildConfig.Modules bc' = Some []) /\
                  (BuildConfig.Modules bc <> None ->
                     BuildConfig.Modules bc' = BuildConfig.Modules bc))
               (MongoDbVersionConfig.Builds v) (MongoDbVersionConfig.Builds v')) /\
  (forall (b : Builder.t A E) (ac : AutomationConfig.t A),
     Reachable Auth_zero b ->
     Build b = Returned ac None ->
     forall v bc, In v (AutomationConfig.Versions ac) ->
       In bc (MongoDbVersionConfig.Builds v) -> BuildConfig.Modules bc <> None).
Proof.
  split.
  - intros b v. eexists. split; [reflexivity|]. split; [reflexivity|]. cbn.
    induction (MongoDbVersionConfig.Builds v) as [|bc bcs IH]; constructor; [|exact IH].
    destruct bc as [platform url [ms|]]; cbn.
    + split; [reflexivity|]. split; [reflexivity|].
      split; [intros Hn; discriminate Hn | intros _; reflexivity].
    + split; [reflexivity|]. split; [reflexivity|].
      split; [intros _; reflexivity | intros Hn; exfalso; apply Hn; reflexivity].
  - intros b ac Hr H v bc Hv Hbc.
    destruct (Build_ok_fields Auth_zero DisabledAuth json_Marshal b ac H)
      as (_ & _ & _ & Hvs & _).
    rewrite Hvs in Hv.
    pose proof (proj1 (Forall_forall _ _) (Reachable_versions b Hr) v Hv) as Hset.
    exact (proj1 (Forall_forall _ _) Hset bc Hbc).
Qed.

End Catalog.

(* ------------------------------------------------------------------ *)
(** * Decimal rendering and string concatenation *)

Section Decimal.
Local Open Scope N_scope.

Lemma dec_value_aux_shift (s : string) (a : N) :
  dec_value_aux s a = a * 10 ^ N.of_nat (String.length s) + dec_value_aux s 0.
Proof.
  revert a. induction s as [|c s IH]; intro a.
  - cbn. lia.
  - cbn [dec_value_aux String.length].
    rewrite (IH (a * 10 + digit_value c)), (IH (0 * 10 + digit_value c)).
    rewrite Nat2N.inj_succ, N.pow_succ_r'. ring.
Qed.

Lemma digit_value_digit (d : N) : d < 10 -> digit_value (ascii_of_N (48 + d)) = d.
Proof. intro Hd. unfold digit_value. rewrite N_ascii_embedding by lia. lia. Qed.

Lemma dec_digits_value (fuel : nat) (n : N) (acc : string) :
  n < 10 ^ N.of_nat fuel ->
  dec_value (dec_digits fuel n acc) = n * 10 ^ N.of_nat (String.length acc) + dec_value acc.
Proof.
  revert n acc. induction fuel as [|f IH]; intros n acc Hn.
  - cbn in Hn. cbn [dec_digits]. assert (n = 0)%N by lia. subst n. lia.
  - cbn [dec_digits].
    pose proof (N.div_mod n 10 ltac:(lia)) as Hdm.
    pose proof (N.mod_lt n 10 ltac:(lia)) as Hlt.
    assert (Hstep : dec_value (String (ascii_of_N (48 + n mod 10)) acc) =
                    n mod 10 * 10 ^ N.of_nat (String.length acc) + dec_value acc).
    { unfold dec_value. cbn [dec_value_aux].
      rewrite dec_value_aux_shift, digit_value_digit by exact Hlt. ring. }
    destruct (N.eqb (n / 10) 0) eqn:Hq.
    + apply N.eqb_eq in Hq. rewrite Hstep. rewrite Hq in Hdm.
      replace n with (n mod 10) at 2 by lia. reflexivity.
    + rewrite IH.
      * cbn [String.length]. rewrite Hstep, Nat2N.inj_succ, N.pow_succ_r'.
        rewrite Hdm at 3. ring.
      * apply N.Div0.div_lt_upper_bound.
        rewrite Nat2N.inj_succ, N.pow_succ_r' in Hn. exact Hn.
Qed.

Lemma lt_pow2_size_nat (n : N) : n < 2 ^ N.of_nat (N.size_nat n).
Proof.
  destruct n as [|p]; [cbn; lia|]. cbn [N.size_nat].
  induction p as [p IH|p IH|]; cbn [Pos.size_nat].
  - rewrite Nat2N.inj_succ, N.pow_succ_r'. lia.
  - rewrite Nat2N.inj_succ, N.pow_succ_r'. lia.
  - cbn. lia.
Qed.

(** [%d] of a natural number reads back as that number. *)
Lemma N_to_dec_value (n : N) : dec_value (N_to_dec n) = n.
Proof.
  unfold N_to_dec. rewrite dec_digits_value.
  - cbn. lia.
  - rewrite Nat2N.inj_succ, N.pow_succ_r'.
    pose proof (lt_pow2_size_nat n).
    assert (2 ^ N.of_nat (N.size_nat n) <= 10 ^ N.of_nat (N.size_nat n))
      by (apply N.pow_le_mono_l; lia).
    lia.
Qed.

End Decimal.

Lemma itoa_inj (i j : Z) : 0 <= i -> 0 <= j -> itoa i = itoa j -> i = j.
Proof.
  intros Hi Hj H. unfold itoa in H.
  replace (i <? 0) with false in H by (symmetry; apply Z.ltb_ge; exact Hi).
  replace (j <? 0) with false in H by (symmetry; apply Z.ltb_ge; exact Hj).
  apply (f_equal dec_value) in H. rewrite !N_to_dec_value in H.
  apply Z2N.inj; assumption.
Qed.

Lemma string_length_append (s t : string) :
  String.length (s ++ t) = (String.length s + String.length t)%nat.
Proof. induction s as [|c s IH]; cbn; [reflexivity|]. rewrite IH. reflexivity. Qed.

Lemma string_append_assoc (s1 s2 s3 : string) :
  ((s1 ++ s2) ++ s3 = s1 ++ (s2 ++ s3))%string.
Proof. induction s1 as [|c s IH]; cbn; [reflexivity|]. rewrite IH. reflexivity. Qed.

Lemma string_append_cancel_l (s t1 t2 : string) :
  (s ++ t1 = s ++ t2)%string -> t1 = t2.
Proof. induction s as [|c s IH]; cbn; [tauto|]. intro H. injection H as H. auto. Qed.

Lemma string_append_cancel_r (s1 s2 t : string) :
  (s1 ++ t = s2 ++ t)%string -> s1 = s2.
Proof.
  revert s2. induction s1 as [|c s1 IH]; intros [|c2 s2] H; cbn in H.
  - reflexivity.
  - apply (f_equal String.length) in H. cbn in H. rewrite string_length_append in H. lia.
  - apply (f_equal String.length) in H. cbn in H. rewrite string_length_append in H. lia.
  - injection H as -> H. f_equal. apply IH. exact H.
Qed.

Lemma in_indices_nonneg (n i : Z) : In i (indices n) -> 0 <= i.
Proof. unfold indices. intro H. apply in_map_iff in H as (k & <- & _). lia. Qed.

Lemma indices_NoDup (n : Z) : NoDup (indices n).
Proof.
  unfold indices. apply NoDup_map_NoDup_ForallPairs; [|apply seq_NoDup].
  intros x y _ _. apply Nat2Z.inj.
Qed.

(* ------------------------------------------------------------------ *)
(** * Further properties of [Build] and the setters *)

Section MoreBuild.

Context {A E : Type}.
Variable Auth_zero : A.
Variable DisabledAuth : A.
Variable json_Marshal : AutomationConfig.t A -> string + E.

Local Abbreviation Build := (Build Auth_zero DisabledAuth json_Marshal).

(** Two builders that agree on the members count, the enabler, the previous
    document and every assembled document build the same outcome. *)
Lemma Build_congr (b1 b2 : Builder.t A E) :
  Builder.members b1 = Builder.members b2 ->
  Builder.enabler b1 = Builder.enabler b2 ->
  Builder.previousAC b1 = Builder.previousAC b2 ->
  (forall auth, assembled b1 auth = assembled b2 auth) ->
  Build b1 = Build b2.
Proof.
  intros Hm He Hp Ha. rewrite !Build_assembled, Hm, He, Hp.
  destruct (Builder.members b2 <? 0); [reflexivity|].
  destruct (Builder.enabler b2) as [enable|]; [|reflexivity].
  destruct (enable DisabledAuth) as [auth [err|]]; [reflexivity|].
  rewrite Ha. reflexivity.
Qed.

Lemma process_at_other_fields (b : Builder.t A E) (i : Z) :
  Process.FeatureCompatibilityVersion (process_at b i) = Builder.fcv b /\
  Process.Version (process_at b i) = Builder.mongodbVersion b /\
  Args26.ReplicaSetName (Process.Args26 (process_at b i)) = Builder.name b.
Proof.
  unfold process_at, newProcess, process_opts.
  destruct (isTLSEnabled b); repeat split; reflexivity.
Qed.

Lemma hostname_of_toHostName (b : Builder.t A E) (i : Z) :
  hostname_of b i = (toHostName (Builder.name b) i ++ "." ++ Builder.domain b)%string.
Proof. unfold hostname_of, toHostName. rewrite !string_append_assoc. reflexivity. Qed.


(** X2: when [Build] returns an error, the document is the zero value and
    the error is the enabler's, or that of serializing the previous or the
    newly assembled document. *)
Theorem Build_error_result (b : Builder.t A E) (ac : AutomationConfig.t A) (e : E) :
  Build b = Returned ac (Some e) ->
  ac = AutomationConfig.zero Auth_zero /\
  exists enable auth err,
    Builder.enabler b = Some enable /\
    enable DisabledAuth = (auth, err) /\
    (err = Some e \/
     (err = None /\
      (json_Marshal (Builder.previousAC b) = inr e \/
       json_Marshal (assembled b auth) = inr e))).
Proof.
  rewrite Build_assembled.
  destruct (Builder.members b <? 0); [discriminate|].
  destruct (Builder.enabler b) as [enable|]; [|discriminate].
  destruct (enable DisabledAuth) as [auth [err|]] eqn:He.
  - intro H. injection H as <- <-. split; [reflexivity|].
    exists enable, auth, (Some err). split; [reflexivity|]. split; [exact He|].
    left. reflexivity.
  - destruct (json_Marshal (Builder.previousAC b)) as [sp|err] eqn:Hp.
    + destruct (json_Marshal (assembled b auth)) as [sc|err] eqn:Hc.
      * destruct (negb _); discriminate.
      * intro H. injection H as <- <-. split; [reflexivity|].
        exists enable, auth, None. split; [reflexivity|]. split; [exact He|].
        right. split; [reflexivity|]. right. first [exact Hc | reflexivity].
    + intro H. injection H as <- <-. split; [reflexivity|].
      exists enable, auth, None. split; [reflexivity|]. split; [exact He|].
      right. split; [reflexivity|]. left. first [exact Hp | reflexivity].
Qed.

(** X3: a failure to serialize the previous document is returned as is,
    with the zero document. *)
Theorem Build_marshal_previous_error
    (b : Builder.t A E) (enable : Enabler A E) (auth : A) (e : E) :
  0 <= Builder.members b ->
  Builder.enabler b = Some enable ->
  enable DisabledAuth = (auth, None) ->
  json_Marshal (Builder.previousAC b) = inr e ->
  Build b = Returned (AutomationConfig.zero Auth_zero) (Some e).
Proof.
  intros Hm Hen He Hp. rewrite Build_assembled, Hen, He, Hp.
  replace (Builder.members b <? 0) with false by (symmetry; apply Z.ltb_ge; exact Hm).
  reflexivity.
Qed.


(** X5: the built document's authentication is exactly what the enabler
    returned for the disabled baseline, and its options carry the fixed
    download base. *)
Theorem Build_auth_options (b : Builder.t A E) (ac : AutomationConfig.t A) :
  Build b = Returned ac None ->
  exists enable,
    Builder.enabler b = Some enable /\
    enable DisabledAuth = (AutomationConfig.Auth ac, None) /\
    AutomationConfig.Options ac = Options.mk "/var/lib/mongodb-mms-automation"%string.
Proof.
  intros H.
  destruct (Build_ok_upto_version Auth_zero DisabledAuth json_Marshal b ac H)
    as (enable & auth & Hen & He & Hv).
  specialize (Hv 0). rewrite assembled_closed in Hv.
  destruct ac. cbn in Hv. injection Hv as _ _ _ -> -> _.
  exists enable. cbn. auto.
Qed.

(** X6: every process of a built document has the configured feature
    compatibility version and MongoDB version, and the deployment name as
    replica-set name. *)
Theorem Build_process_settings (b : Builder.t A E) (ac : AutomationConfig.t A) :
  Build b = Returned ac None ->
  forall p, In p (AutomationConfig.Processes ac) ->
    Process.FeatureCompatibilityVersion p = Builder.fcv b /\
    Process.Version p = Builder.mongodbVersion b /\
    Args26.ReplicaSetName (Process.Args26 p) = Builder.name b.
Proof.
  intros H p Hp.
  destruct (Build_ok_fields Auth_zero DisabledAuth json_Marshal b ac H) as (_ & Hps & _).
  rewrite Hps in Hp. apply in_map_iff in Hp as (i & <- & _).
  apply process_at_other_fields.
Qed.

(** X7: every process's hostname is its process name followed by "." and
    the domain. *)
Theorem Build_hostname_is_name_domain (b : Builder.t A E) (ac : AutomationConfig.t A) :
  Build b = Returned ac None ->
  forall p, In p (AutomationConfig.Processes ac) ->
    Process.HostName p = (Process.Name p ++ "." ++ Builder.domain b)%string.
Proof.
  intros H p Hp.
  destruct (Build_ok_fields Auth_zero DisabledAuth json_Marshal b ac H) as (_ & Hps & _).
  rewrite Hps in Hp. apply in_map_iff in Hp as (i & <- & _).
  rewrite process_at_HostName, process_at_Name. apply hostname_of_toHostName.
Qed.

(** X8: the processes of a built document have pairwise distinct names and
    pairwise distinct hostnames. *)
Theorem Build_unique_names (b : Builder.t A E) (ac : AutomationConfig.t A) :
  Build b = Returned ac None ->
  NoDup (map Process.Name (AutomationConfig.Processes ac)) /\
  NoDup (map Process.HostName (AutomationConfig.Processes ac)).
Proof.
  intros H.
  destruct (Build_ok_fields Auth_zero DisabledAuth json_Marshal b ac H) as (_ & Hps & _).
  rewrite Hps, !map_map.
  assert (Hinj : forall x y, In x (indices (Builder.members b)) -> In y (indices (Builder.members b)) ->
            toHostName (Builder.name b) x = toHostName (Builder.name b) y -> x = y).
  { intros x y Hx Hy Hxy. unfold toHostName in Hxy.
    apply string_append_cancel_l in Hxy. apply string_append_cancel_l in Hxy.
    apply itoa_inj; [eapply in_indices_nonneg; exact Hx | eapply in_indices_nonneg; exact Hy | exact Hxy]. }
  split; apply NoDup_map_NoDup_ForallPairs; try apply indices_NoDup;
    intros x y Hx Hy Hxy; apply Hinj; try assumption.
  - rewrite !process_at_Name in Hxy. exact Hxy.
  - rewrite !process_at_HostName, !hostname_of_toHostName in Hxy.
    eapply string_append_cancel_r. exact Hxy.
Qed.

(** X9: [Build] never reads the topology: setting it changes no outcome. *)
Theorem Build_ignores_topology (b : Builder.t A E) (t : Topology) :
  Build (SetTopology b t) = Build b.
Proof.
  apply Build_congr; try reflexivity.
  intro auth. rewrite !assembled_closed. reflexivity.
Qed.

(** X10: TLS inputs that do not enable TLS have no effect: the outcome is
    the one with the three TLS settings left empty. *)
Theorem Build_partial_tls_ignored
    (b : Builder.t A E) (caFile certAndKeyFile : string) (mode : SSLMode) :
  ~ (caFile <> ""%string /\ certAndKeyFile <> ""%string /\ mode <> SSLModeDisabled) ->
  Build (SetTLS b caFile certAndKeyFile mode) = Build (SetTLS b ""%string ""%string ""%string).
Proof.
  intros Hoff.
  assert (H1 : isTLSEnabled (SetTLS b caFile certAndKeyFile mode) = false)
    by (apply isTLSEnabled_false; exact Hoff).
  assert (H2 : isTLSEnabled (SetTLS b ""%string ""%string ""%string) = false)
    by (apply isTLSEnabled_false; intros (Hc & _); apply Hc; reflexivity).
  assert (Hp : forall i, process_at (SetTLS b caFile certAndKeyFile mode) i =
                         process_at (SetTLS b ""%string ""%string ""%string) i).
  { intro i. unfold process_at, process_opts. rewrite H1, H2. reflexivity. }
  apply Build_congr; try reflexivity.
  intro auth. rewrite !assembled_closed, H1, H2.
  rewrite (map_ext _ _ Hp).
  rewrite (map_ext (fun i => newReplicaSetMember (process_at (SetTLS b caFile certAndKeyFile mode) i) i)
                   (fun i => newReplicaSetMember (process_at (SetTLS b ""%string ""%string ""%string) i) i))
    by (intro i; rewrite Hp; reflexivity).
  reflexivity.
Qed.

(** X11: calls of two different setters commute. *)
Theorem setters_commute (b : Builder.t A E) (o1 o2 : BuilderOp) :
  op_setter o1 <> op_setter o2 ->
  apply_op (apply_op b o1) o2 = apply_op (apply_op b o2) o1.
Proof.
  intros H. destruct o1, o2; cbn in H; try (exfalso; apply H; reflexivity); reflexivity.
Qed.

(** X12: a second call of the same setter, [AddVersion] apart, overrides the
    first one. *)
Theorem setter_last_call_wins (b : Builder.t A E) (o1 o2 : BuilderOp) :
  op_setter o1 = op_setter o2 ->
  op_setter o1 <> 7%nat ->
  apply_op (apply_op b o1) o2 = apply_op b o2.
Proof.
  intros H H7. destruct o1, o2; cbn in H, H7; try discriminate H;
    try (exfalso; apply H7; reflexivity); reflexivity.
Qed.

(** X13: successive [AddVersion] calls keep every entry, in call order, each
    with its number of builds. *)
Theorem AddVersion_accumulates (b : Builder.t A E) (vs : list MongoDbVersionConfig.t) :
  map MongoDbVersionConfig.Name (Builder.versions (fold_left AddVersion vs b)) =
    map MongoDbVersionConfig.Name (Builder.versions b) ++ map MongoDbVersionConfig.Name vs /\
  map (fun v => length (MongoDbVersionConfig.Builds v)) (Builder.versions (fold_left AddVersion vs b)) =
    map (fun v => length (MongoDbVersionConfig.Builds v)) (Builder.versions b) ++
    map (fun v => length (MongoDbVersionConfig.Builds v)) vs.
Proof.
  revert b. induction vs as [|v vs IH]; intro b.
  - cbn. rewrite !app_nil_r. split; reflexivity.
  - cbn [fold_left]. destruct (IH (AddVersion b v)) as [H1 H2].
    rewrite H1, H2. cbn [AddVersion Builder.versions].
    rewrite !map_app, <- !app_assoc. cbn. rewrite length_map. split; reflexivity.
Qed.

End MoreBuild.

(* ------------------------------------------------------------------ *)
(** * The theorems at concrete builders *)

Lemma Build_version_bump_witness :
  let b := Demo.builder_tls in
  let ac := Demo.outcome_ac (Build false Demo.DisabledAuth Demo.json_Marshal b) in
  Build false Demo.DisabledAuth Demo.json_Marshal b = Returned ac None /\
  exists sprev scur,
    Demo.json_Marshal (Builder.previousAC b) = inl sprev /\
    Demo.json_Marshal (AutomationConfig.set_Version
                         (AutomationConfig.Version (Builder.previousAC b)) ac) = inl scur /\
    AutomationConfig.Version ac =
      (if String.eqb sprev scur
       then AutomationConfig.Version (Builder.previousAC b)
       else int_add (AutomationConfig.Version (Builder.previousAC b)) 1).
Proof.
  intros b ac. split.
  - vm_compute. reflexivity.
  - apply (Build_version_bump false Demo.DisabledAuth Demo.json_Marshal b ac).
    vm_compute. reflexivity.
Defined.

Lemma Build_idempotent_witness :
  let b := Demo.builder3 (AutomationConfig.zero false) in
  let Y := Demo.outcome_ac (Build false Demo.DisabledAuth Demo.json_Marshal b) in
  (forall (ac : AutomationConfig.t bool) (v : Z) (s : string),
      Demo.json_Marshal ac = inl s ->
      exists s', Demo.json_Marshal (AutomationConfig.set_Version v ac) = inl s') /\
  Build false Demo.DisabledAuth Demo.json_Marshal b = Returned Y None /\
  Build false Demo.DisabledAuth Demo.json_Marshal (SetPreviousAutomationConfig b Y) =
    Returned Y None.
Proof.
  intros b Y.
  assert (Hm : forall (ac : AutomationConfig.t bool) (v : Z) (s : string),
      Demo.json_Marshal ac = inl s ->
      exists s', Demo.json_Marshal (AutomationConfig.set_Version v ac) = inl s').
  { intros ac v s _. eexists. reflexivity. }
  assert (Hb : Build false Demo.DisabledAuth Demo.json_Marshal b = Returned Y None).
  { vm_compute. reflexivity. }
  split; [exact Hm|]. split; [exact Hb|].
  exact (Build_idempotent false Demo.DisabledAuth Demo.json_Marshal Hm b Y Hb).
Defined.

Lemma Build_enabler_error_witness :
  Builder.enabler Demo.builder_fail = Some Demo.failing /\
  Demo.failing Demo.DisabledAuth = (false, Some "bad auth policy"%string) /\
  Build false Demo.DisabledAuth Demo.json_Marshal Demo.builder_fail =
    (if Builder.members Demo.builder_fail <? 0 then Panicked
     else Returned (AutomationConfig.zero false) (Some "bad auth policy"%string)).
Proof.
  split; [reflexivity|]. split; [reflexivity|].
  apply (Build_enabler_error false Demo.DisabledAuth Demo.json_Marshal
           Demo.builder_fail Demo.failing false "bad auth policy"%string);
    reflexivity.
Defined.

Lemma Build_previous_only_version_witness :
  let b := Demo.builder3 Demo.prev5 in
  let ac1 := Demo.outcome_ac (Build false Demo.DisabledAuth Demo.json_Marshal
                (SetPreviousAutomationConfig b (AutomationConfig.zero false))) in
  let ac2 := Demo.outcome_ac (Build false Demo.DisabledAuth Demo.json_Marshal
                (SetPreviousAutomationConfig b Demo.prev5)) in
  Build false Demo.DisabledAuth Demo.json_Marshal
    (SetPreviousAutomationConfig b (AutomationConfig.zero false)) = Returned ac1 None /\
  Build false Demo.DisabledAuth Demo.json_Marshal
    (SetPreviousAutomationConfig b Demo.prev5) = Returned ac2 None /\
  AutomationConfig.set_Version 0 ac1 = AutomationConfig.set_Version 0 ac2.
Proof.
  intros b ac1 ac2.
  assert (H1 : Build false Demo.DisabledAuth Demo.json_Marshal
                 (SetPreviousAutomationConfig b (AutomationConfig.zero false)) = Returned ac1 None).
  { vm_compute. reflexivity. }
  assert (H2 : Build false Demo.DisabledAuth Demo.json_Marshal
                 (SetPreviousAutomationConfig b Demo.prev5) = Returned ac2 None).
  { vm_compute. reflexivity. }
  split; [exact H1|]. split; [exact H2|].
  exact (Build_previous_only_version false Demo.DisabledAuth Demo.json_Marshal
           b (AutomationConfig.zero false) Demo.prev5 ac1 ac2 H1 H2).
Defined.

Lemma Build_process_tls_witness :
  let b := Demo.builder_tls in
  let ac := Demo.outcome_ac (Build false Demo.DisabledAuth Demo.json_Marshal b) in
  Build false Demo.DisabledAuth Demo.json_Marshal b = Returned ac None /\
  forall p, In p (AutomationConfig.Processes ac) ->
    (Process.SSL p <> MongoDBSSL.zero <-> TLSFullyEnabled b) /\
    (TLSFullyEnabled b ->
       Process.SSL p = MongoDBSSL.mk (Builder.tlsMode b) (Builder.tlsCAFile b)
                         (Builder.tlsCertAndKeyFile b) true) /\
    (~ TLSFullyEnabled b -> Process.SSL p = MongoDBSSL.zero).
Proof.
  intros b ac.
  assert (H : Build false Demo.DisabledAuth Demo.json_Marshal b = Returned ac None).
  { vm_compute. reflexivity. }
  split; [exact H|].
  exact (Build_process_tls false Demo.DisabledAuth Demo.json_Marshal b ac H).
Defined.

Lemma Build_members_count_witness :
  let b0 := Demo.builder3 Demo.prev5 in
  let ac := Demo.outcome_ac (Build false Demo.DisabledAuth Demo.json_Marshal (SetMembers b0 4)) in
  Build false Demo.DisabledAuth Demo.json_Marshal (SetMembers b0 4) = Returned ac None /\
  Z.of_nat (length (AutomationConfig.Processes ac)) = 4 /\
  exists rs,
    AutomationConfig.ReplicaSets ac = [rs] /\
    Z.of_nat (length (ReplicaSet.Members rs)) = 4 /\
    map ReplicaSetMember.Id (ReplicaSet.Members rs) = map Z.of_nat (seq 0 (Z.to_nat 4)) /\
    forall (k : nat) (p : Process.t),
      nth_error (AutomationConfig.Processes ac) k = Some p ->
      exists m, nth_error (ReplicaSet.Members rs) k = Some m /\
                ReplicaSetMember.Id m = Z.of_nat k /\
                ReplicaSetMember.Host m = Process.Name p.
Proof.
  intros b0 ac.
  assert (H : Build false Demo.DisabledAuth Demo.json_Marshal (SetMembers b0 4) = Returned ac None).
  { vm_compute. reflexivity. }
  split; [exact H|].
  exact (Build_members_count false Demo.DisabledAuth Demo.json_Marshal b0 4 ac H).
Defined.

Lemma Build_hostnames_witness :
  let b := Demo.builder3 Demo.prev5 in
  let ac := Demo.outcome_ac (Build false Demo.DisabledAuth Demo.json_Marshal b) in
  Build false Demo.DisabledAuth Demo.json_Marshal b = Returned ac None /\
  0 <= 1 < Builder.members b /\
  exists p,
    nth_error (AutomationConfig.Processes ac) (Z.to_nat 1) = Some p /\
    Process.HostName p = (Builder.name b ++ "-" ++ itoa 1 ++ "." ++ Builder.domain b)%string /\
    Process.Name p = (Builder.name b ++ "-" ++ itoa 1)%string.
Proof.
  intros b ac.
  assert (H : Build false Demo.DisabledAuth Demo.json_Marshal b = Returned ac None).
  { vm_compute. reflexivity. }
  assert (Hi : 0 <= 1 < Builder.members b) by (split; [lia | reflexivity]).
  split; [exact H|]. split; [exact Hi|].
  exact (Build_hostnames false Demo.DisabledAuth Demo.json_Marshal b ac 1 H Hi).
Defined.

Lemma Build_ssl_cafile_witness :
  let b := Demo.builder_tls in
  let ac := Demo.outcome_ac (Build false Demo.DisabledAuth Demo.json_Marshal b) in
  Build false Demo.DisabledAuth Demo.json_Marshal b = Returned ac None /\
  SSL.ClientCertificateMode (AutomationConfig.SSL ac) = ClientCertificateModeOptional /\
  (TLSFullyEnabled b -> SSL.CAFilePath (AutomationConfig.SSL ac) = Builder.tlsCAFile b) /\
  (~ TLSFullyEnabled b -> SSL.CAFilePath (AutomationConfig.SSL ac) = ""%string) /\
  (SSL.CAFilePath (AutomationConfig.SSL ac) <> ""%string <-> TLSFullyEnabled b).
Proof.
  intros b ac.
  assert (H : Build false Demo.DisabledAuth Demo.json_Marshal b = Returned ac None).
  { vm_compute. reflexivity. }
  split; [exact H|].
  exact (Build_ssl_cafile false Demo.DisabledAuth Demo.json_Marshal b ac H).
Defined.

Lemma Build_single_replica_set_witness :
  let b := Demo.builder3 Demo.prev5 in
  let ac := Demo.outcome_ac (Build false Demo.DisabledAuth Demo.json_Marshal b) in
  Build false Demo.DisabledAuth Demo.json_Marshal b = Returned ac None /\
  exists rs,
    AutomationConfig.ReplicaSets ac = [rs] /\
    ReplicaSet.Id rs = Builder.name b /\
    ReplicaSet.ProtocolVersion rs = "1"%string /\
    Z.of_nat (length (ReplicaSet.Members rs)) = Builder.members b /\
    length (ReplicaSet.Members rs) = length (AutomationConfig.Processes ac) /\
    forall (k : nat) (p : Process.t),
      nth_error (AutomationConfig.Processes ac) k = Some p ->
      nth_error (ReplicaSet.Members rs) k = Some (newReplicaSetMember p (Z.of_nat k)).
Proof.
  intros b ac.
  assert (H : Build false Demo.DisabledAuth Demo.json_Marshal b = Returned ac None).
  { vm_compute. reflexivity. }
  split; [exact H|].
  exact (Build_single_replica_set false Demo.DisabledAuth Demo.json_Marshal b ac H).
Defined.

Lemma AddVersion_modules_normalized_witness :
  let b := Demo.builder_catalog in
  let ac := Demo.outcome_ac (Build false Demo.DisabledAuth Demo.json_Marshal b) in
  Reachable false b /\
  Build false Demo.DisabledAuth Demo.json_Marshal b = Returned ac None /\
  forall v bc, In v (AutomationConfig.Versions ac) ->
    In bc (MongoDbVersionConfig.Builds v) -> BuildConfig.Modules bc <> None.
Proof.
  intros b ac.
  assert (Hr : Reachable false b).
  { unfold b, Demo.builder_catalog, Demo.builder3.
    apply reach_version, reach_previous, reach_fcv, reach_name, reach_domain,
      reach_members, reach_topology, reach_enabler, reach_new. }
  assert (H : Build false Demo.DisabledAuth Demo.json_Marshal b = Returned ac None).
  { vm_compute. reflexivity. }
  split; [exact Hr|]. split; [exact H|].
  exact (proj2 (AddVersion_modules_normalized false Demo.DisabledAuth Demo.json_Marshal) b ac Hr H).
Defined.

(** The spec's scenarios. *)
Example scenario_rebuild_unchanged :
  AutomationConfig.Version
    (Demo.outcome_ac (Build false Demo.DisabledAuth Demo.json_Marshal (Demo.builder3 Demo.prev5))) = 5.
Proof. vm_compute. reflexivity. Qed.

Example scenario_enable_tls :
  let ac := Demo.outcome_ac (Build false Demo.DisabledAuth Demo.json_Marshal Demo.builder_tls) in
  AutomationConfig.Version ac = 6 /\
  SSL.CAFilePath (AutomationConfig.SSL ac) = "/ca.pem"%string /\
  forallb (fun p => MongoDBSSL.AllowConnectionsWithoutCertificate (Process.SSL p))
    (AutomationConfig.Processes ac) = true.
Proof. vm_compute. repeat split; reflexivity. Qed.

Example scenario_four_members :
  let b := SetDomain (SetName (SetMembers (Demo.builder3 Demo.prev5) 4) "rs0") "svc.local" in
  let ac := Demo.outcome_ac (Build false Demo.DisabledAuth Demo.json_Marshal b) in
  map Process.HostName (AutomationConfig.Processes ac) =
    ["rs0-0.svc.local"; "rs0-1.svc.local"; "rs0-2.svc.local"; "rs0-3.svc.local"]%string /\
  AutomationConfig.Version ac = 6.
Proof. vm_compute. split; reflexivity. Qed.

Example negative_members_panic :
  Build false Demo.DisabledAuth Demo.json_Marshal (SetMembers (Demo.builder3 Demo.prev5) (-1)) =
  Panicked.
Proof. vm_compute. reflexivity. Qed.

(* ------------------------------------------------------------------ *)
(** * The further properties at concrete builders *)

Lemma Build_error_result_witness :
  let b := Demo.builder_fail in
  let ac := Demo.outcome_ac (Build false Demo.DisabledAuth Demo.json_Marshal b) in
  Build false Demo.DisabledAuth Demo.json_Marshal b = Returned ac (Some "bad auth policy"%string) /\
  ac = AutomationConfig.zero false /\
  exists enable auth err,
    Builder.enabler b = Some enable /\
    enable Demo.DisabledAuth = (auth, err) /\
    (err = Some "bad auth policy"%string \/
     (err = None /\
      (Demo.json_Marshal (Builder.previousAC b) = inr "bad auth policy"%string \/
       Demo.json_Marshal (assembled b auth) = inr "bad auth policy"%string))).
Proof.
  intros b ac.
  assert (H : Build false Demo.DisabledAuth Demo.json_Marshal b = Returned ac (Some "bad auth policy"%string)).
  { vm_compute. reflexivity. }
  split; [exact H|].
  exact (Build_error_result false Demo.DisabledAuth Demo.json_Marshal b ac _ H).
Defined.

Lemma Build_marshal_previous_error_witness :
  let b := Demo.builder3 Demo.prev7 in
  0 <= Builder.members b /\
  Builder.enabler b = Some Demo.keep_disabled /\
  Demo.keep_disabled Demo.DisabledAuth = (false, None) /\
  Demo.json_Marshal_refusing_7 (Builder.previousAC b) = inr "json: unsupported value"%string /\
  Build false Demo.DisabledAuth Demo.json_Marshal_refusing_7 b =
    Returned (AutomationConfig.zero false) (Some "json: unsupported value"%string).
Proof.
  intros b.
  assert (Hm : 0 <= Builder.members b) by (vm_compute; discriminate).
  assert (Hen : Builder.enabler b = Some Demo.keep_disabled) by reflexivity.
  assert (He : Demo.keep_disabled Demo.DisabledAuth = (false, None)) by reflexivity.
  assert (Hp : Demo.json_Marshal_refusing_7 (Builder.previousAC b) = inr "json: unsupported value"%string)
    by (vm_compute; reflexivity).
  split; [exact Hm|]. split; [exact Hen|]. split; [exact He|]. split; [exact Hp|].
  exact (Build_marshal_previous_error false Demo.DisabledAuth Demo.json_Marshal_refusing_7
           b Demo.keep_disabled false _ Hm Hen He Hp).
Defined.


Lemma Build_auth_options_witness :
  let b := Demo.builder3 Demo.prev5 in
  let ac := Demo.outcome_ac (Build false Demo.DisabledAuth Demo.json_Marshal b) in
  Build false Demo.DisabledAuth Demo.json_Marshal b = Returned ac None /\
  exists enable,
    Builder.enabler b = Some enable /\
    enable Demo.DisabledAuth = (AutomationConfig.Auth ac, None) /\
    AutomationConfig.Options ac = Options.mk "/var/lib/mongodb-mms-automation"%string.
Proof.
  intros b ac.
  assert (H : Build false Demo.DisabledAuth Demo.json_Marshal b = Returned ac None).
  { vm_compute. reflexivity. }
  split; [exact H|].
  exact (Build_auth_options false Demo.DisabledAuth Demo.json_Marshal b ac H).
Defined.

Lemma Build_process_settings_witness :
  let b := Demo.builder_tls in
  let ac := Demo.outcome_ac (Build false Demo.DisabledAuth Demo.json_Marshal b) in
  Build false Demo.DisabledAuth Demo.json_Marshal b = Returned ac None /\
  exists p, In p (AutomationConfig.Processes ac) /\
    Process.FeatureCompatibilityVersion p = Builder.fcv b /\
    Process.Version p = Builder.mongodbVersion b /\
    Args26.ReplicaSetName (Process.Args26 p) = Builder.name b.
Proof.
  intros b ac.
  assert (H : Build false Demo.DisabledAuth Demo.json_Marshal b = Returned ac None).
  { vm_compute. reflexivity. }
  split; [exact H|].
  assert (Hin : In (process_at b 0) (AutomationConfig.Processes ac)) by (vm_compute; left; reflexivity).
  exists (process_at b 0). split; [exact Hin|].
  exact (Build_process_settings false Demo.DisabledAuth Demo.json_Marshal b ac H _ Hin).
Defined.

Lemma Build_hostname_is_name_domain_witness :
  let b := Demo.builder3 Demo.prev5 in
  let ac := Demo.outcome_ac (Build false Demo.DisabledAuth Demo.json_Marshal b) in
  Build false Demo.DisabledAuth Demo.json_Marshal b = Returned ac None /\
  exists p, In p (AutomationConfig.Processes ac) /\
    Process.HostName p = (Process.Name p ++ "." ++ Builder.domain b)%string.
Proof.
  intros b ac.
  assert (H : Build false Demo.DisabledAuth Demo.json_Marshal b = Returned ac None).
  { vm_compute. reflexivity. }
  split; [exact H|].
  assert (Hin : In (process_at b 2) (AutomationConfig.Processes ac))
    by (vm_compute; right; right; left; reflexivity).
  exists (process_at b 2). split; [exact Hin|].
  exact (Build_hostname_is_name_domain false Demo.DisabledAuth Demo.json_Marshal b ac H _ Hin).
Defined.

Lemma Build_unique_names_witness :
  let b := Demo.builder3 Demo.prev5 in
  let ac := Demo.outcome_ac (Build false Demo.DisabledAuth Demo.json_Marshal b) in
  Build false Demo.DisabledAuth Demo.json_Marshal b = Returned ac None /\
  NoDup (map Process.Name (AutomationConfig.Processes ac)) /\
  NoDup (map Process.HostName (AutomationConfig.Processes ac)).
Proof.
  intros b ac.
  assert (H : Build false Demo.DisabledAuth Demo.json_Marshal b = Returned ac None).
  { vm_compute. reflexivity. }
  split; [exact H|].
  exact (Build_unique_names false Demo.DisabledAuth Demo.json_Marshal b ac H).
Defined.

Lemma Build_partial_tls_ignored_witness :
  let b := Demo.builder3 Demo.prev5 in
  ~ ("/ca.pem"%string <> ""%string /\ ""%string <> ""%string /\ "requireSSL"%string <> SSLModeDisabled) /\
  Build false Demo.DisabledAuth Demo.json_Marshal (SetTLS b "/ca.pem"%string ""%string "requireSSL"%string) =
    Build false Demo.DisabledAuth Demo.json_Marshal (SetTLS b ""%string ""%string ""%string).
Proof.
  intros b.
  assert (Hoff : ~ ("/ca.pem"%string <> ""%string /\ ""%string <> ""%string /\
                    "requireSSL"%string <> SSLModeDisabled))
    by (intros (_ & Hck & _); apply Hck; reflexivity).
  split; [exact Hoff|].
  exact (Build_partial_tls_ignored false Demo.DisabledAuth Demo.json_Marshal b _ _ _ Hoff).
Defined.

Lemma setters_commute_witness :
  let b := Demo.builder3 Demo.prev5 in
  let o1 := (OpSetMembers (A:=bool) (E:=string) 4) in
  let o2 := (OpSetDomain (A:=bool) (E:=string) "cluster.local"%string) in
  op_setter o1 <> op_setter o2 /\
  apply_op (apply_op b o1) o2 =
    apply_op (apply_op b o2) o1.
Proof.
  intros b o1 o2.
  assert (Hd : op_setter o1 <> op_setter o2) by (vm_compute; discriminate).
  split; [exact Hd|].
  exact (setters_commute b o1 o2 Hd).
Defined.

Lemma setter_last_call_wins_witness :
  let b := Demo.builder3 Demo.prev5 in
  let o1 := (OpSetFCV (A:=bool) (E:=string) "4.0"%string) in
  let o2 := (OpSetFCV (A:=bool) (E:=string) "4.4"%string) in
  op_setter o1 = op_setter o2 /\
  op_setter o1 <> 7%nat /\
  apply_op (apply_op b o1) o2 = apply_op b o2.
Proof.
  intros b o1 o2.
  assert (Hs : op_setter o1 = op_setter o2) by reflexivity.
  assert (H7 : op_setter o1 <> 7%nat) by (vm_compute; discriminate).
  split; [exact Hs|]. split; [exact H7|].
  exact (setter_last_call_wins b o1 o2 Hs H7).
Defined.
